(** * scripts/pandoc-html.py: markdown to html through pandoc

    A shallow embedding of the script [scripts/pandoc-html.py] and the
    properties of it that the specification states.

    The script is straight-line Python: it reads [sys.argv[1]], two
    variables of [os.environ], builds two paths with [os.path], starts
    [/usr/bin/pandoc] with [subprocess.Popen], waits for it and prints two
    lines when the exit status is not zero.  The embedding keeps that
    shape: a small state-and-exception monad for the effects, one
    definition per Python library call the script makes, and the script
    itself as one monadic program in the order of the source lines.  The
    import of [pdb.set_trace] at the head of the script is never called
    and has no counterpart here. *)

From Stdlib Require Import Strings.Ascii Strings.Byte.
From stdpp Require Import base numbers list strings gmap pretty.

(** ** Python strings

    [str] is modelled by [string]; the empty string is written [EmptyString]
    throughout.  The functions below are the [str] methods and slices that
    [posixpath] uses. *)

Module Str.

(** [s[n:]] for [0 <= n]. *)
Fixpoint drop (n : nat) (s : string) : string :=
  match n, s with
  | O, _ => s
  | S _, EmptyString => EmptyString
  | S n', String _ s' => drop n' s'
  end.

(** [s.rfind(c)] for a one-character [c]: the highest index of [c] in
    [s], or [-1]. *)
Fixpoint rfind (c : ascii) (s : string) : Z :=
  match s with
  | EmptyString => (-1)%Z
  | String x s' =>
      let r := rfind c s' in
      if (0 <=? r)%Z then (r + 1)%Z
      else if Ascii.eqb x c then 0%Z else (-1)%Z
  end.

(** [s.startswith(p)]. *)
Fixpoint startswith (p s : string) : bool :=
  match p, s with
  | EmptyString, _ => true
  | String _ _, EmptyString => false
  | String a p', String b s' => Ascii.eqb a b && startswith p' s'
  end.

(** [s.endswith(p)]: one of the tails of [s] is [p]. *)
Fixpoint endswith (p s : string) : bool :=
  match s with
  | EmptyString => String.eqb p EmptyString
  | String _ s' => String.eqb p s || endswith p s'
  end.

(** [c in s] for a one-character [c]. *)
Fixpoint contains (c : ascii) (s : string) : bool :=
  match s with
  | EmptyString => false
  | String x s' => Ascii.eqb x c || contains c s'
  end.

(** [s[-1:]]: the last character, if there is one. *)
Fixpoint last (s : string) : option ascii :=
  match s with
  | EmptyString => None
  | String x EmptyString => Some x
  | String _ s' => last s'
  end.

End Str.

(** ** posixpath

    [/usr/bin/pandoc] and the unit test in the header of the script place
    it on a POSIX system, where [os.path] is [posixpath] and [sep] is
    ["/"]. *)

Module posixpath.

Definition sep_char : ascii := "/"%char.
Definition sep : string := String sep_char EmptyString.

(** [def basename(p): i = p.rfind(sep) + 1; return p[i:]] *)
Definition basename (p : string) : string :=
  let i := (Str.rfind sep_char p + 1)%Z in
  Str.drop (Z.to_nat i) p.

(** [os.path.join(a, b)], the loop of [posixpath.join] run on its one
    extra argument:
    [if b.startswith(sep): path = b
     elif not path or path.endswith(sep): path += b
     else: path += sep + b]. *)
Definition join (a b : string) : string :=
  if Str.startswith sep b then b
  else if String.eqb a EmptyString || Str.endswith sep a then a +:+ b
  else a +:+ sep +:+ b.

End posixpath.

(** ** Python bytes and their [repr]

    [subprocess] hands the captured streams over as [bytes]; the f-string
    of the script formats them with [str(b)], which for [bytes] is
    [repr(b)]: [b'...'] with the escapes of [PyBytes_Repr]. *)

Abbreviation bytes := (list byte).

Module Bytes.

Definition squote : ascii := ascii_of_nat 39.
Definition dquote : ascii := ascii_of_nat 34.
Definition backslash : ascii := ascii_of_nat 92.

Definition of_string (s : string) : bytes :=
  map byte_of_ascii (String.list_ascii_of_string s).

(** [Py_hexdigits[n]] for [n < 16]. *)
Definition hexdigit (n : N) : ascii :=
  match String.get (N.to_nat n) "0123456789abcdef" with
  | Some d => d
  | None => "0"%char
  end.

Definition one (c : ascii) : string := String c EmptyString.

(** The body of the loop of [PyBytes_Repr] for one byte. *)
Definition repr_byte (quote : ascii) (b : byte) : string :=
  let c := ascii_of_byte b in
  let n := Byte.to_N b in
  if Ascii.eqb c quote || Ascii.eqb c backslash then String backslash (one c)
  else if (n =? 9)%N then String backslash (one "t")
  else if (n =? 10)%N then String backslash (one "n")
  else if (n =? 13)%N then String backslash (one "r")
  else if (n <? 32)%N || (127 <=? n)%N then
    String backslash (String "x"
      (String (hexdigit (N.shiftr (N.land n 240) 4))
         (one (hexdigit (N.land n 15)))))
  else one c.

Definition has (c : ascii) (bs : bytes) : bool :=
  existsb (λ b, Ascii.eqb (ascii_of_byte b) c) bs.

(** Single quotes, unless the bytes hold a single quote and no double
    quote. *)
Definition quote_of (bs : bytes) : ascii :=
  if has squote bs && negb (has dquote bs) then dquote else squote.

Fixpoint repr_body (quote : ascii) (bs : bytes) : string :=
  match bs with
  | [] => one quote
  | b :: bs' => repr_byte quote b +:+ repr_body quote bs'
  end.

Definition repr (bs : bytes) : string :=
  String "b" (String (quote_of bs) (repr_body (quote_of bs) bs)).

(** The bytes read as text, one character for each byte. *)
Definition to_string (bs : bytes) : string :=
  String.string_of_list_ascii (map ascii_of_byte bs).

(** Printable ASCII other than the single quote and the backslash: the
    bytes that [repr] shows as they are. *)
Definition plain (b : byte) : bool :=
  let n := Byte.to_N b in
  (32 <=? n)%N && (n <? 127)%N && negb (n =? 39)%N && negb (n =? 92)%N.

End Bytes.

(** ** The process and its effects *)

(** The file system as far as the script can change it: the content of
    the files, by path. *)
Abbreviation filesystem := (gmap string bytes).

(** The exceptions the script can end with.  [sys.argv[1]] raises
    [IndexError], [os.environ[k]] raises [KeyError], [Popen] raises
    [OSError] when the executable cannot be started. *)
Inductive exn : Type :=
  | IndexError
  | KeyError (key : string)
  | OSError.

(** [IndexError] and [KeyError] are the two subclasses of Python's
    [LookupError]. *)
Definition is_LookupError (e : exn) : bool :=
  match e with
  | IndexError | KeyError _ => true
  | OSError => false
  end.

(** What a terminated child leaves behind: the value of [proc.wait()] and
    the two captured streams. *)
Record completed : Type := Completed {
  returncode : Z;
  stdout_data : bytes;
  stderr_data : bytes
}.

(** A started child, run with both of its output streams on pipes that
    nobody reads before it ends: it either never terminates (it hangs, or
    it fills a pipe and waits for a reader), or terminates and leaves the
    file system in a new state. *)
Inductive child : Type :=
  | NeverExits
  | Exits (c : completed) (fs' : filesystem).

(** The operating system as [Popen] sees it: given the command and the
    file system, the executable cannot be started ([None]) or a child
    runs. *)
Abbreviation launcher := (list string → filesystem → option child).

(** One invocation of the script. *)
Record process : Type := Process {
  argv : list string;
  environ : gmap string string;
  os_exec : launcher
}.

(** What the script does that can be seen from outside, in order. *)
Inductive event : Type :=
  | EnvRead (key : string)        (* os.environ[key] *)
  | Spawn (cmd : list string)     (* subprocess.Popen(cmd, ...) *)
  | Print (line : string).        (* print(line), on sys.stdout *)

Record state : Type := State {
  fs : filesystem;
  trace : list event
}.

Definition log (e : event) (s : state) : state :=
  {| fs := fs s; trace := trace s ++ [e] |}.

Inductive res (A : Type) : Type :=
  | Val (a : A)
  | Raise (e : exn)
  | Blocked.
Arguments Val {A} a.
Arguments Raise {A} e.
Arguments Blocked {A}.

(** State passing with exceptions and blocking: a statement that raises or
    blocks ends the script in the state reached so far. *)
Definition M (A : Type) : Type := state → res A * state.

#[global] Instance M_ret : MRet M := λ A a s, (Val a, s).
#[global] Instance M_bind : MBind M := λ A B f m s,
  match m s with
  | (Val a, s') => f a s'
  | (Raise e, s') => (Raise e, s')
  | (Blocked, s') => (Blocked, s')
  end.

Section Effects.
Variable p : process.

(** [sys.argv[i]] *)
Definition sys_argv (i : nat) : M string := λ s,
  match argv p !! i with
  | Some a => (Val a, s)
  | None => (Raise IndexError, s)
  end.

(** [os.environ[key]] *)
Definition os_environ (key : string) : M string := λ s,
  match environ p !! key with
  | Some v => (Val v, log (EnvRead key) s)
  | None => (Raise (KeyError key), log (EnvRead key) s)
  end.

(** [subprocess.Popen(cmd, stdout=PIPE, stderr=PIPE)] *)
Definition Popen (cmd : list string) : M child := λ s,
  match os_exec p cmd (fs s) with
  | Some proc => (Val proc, log (Spawn cmd) s)
  | None => (Raise OSError, log (Spawn cmd) s)
  end.

(** [proc.wait()]: blocks until the child has terminated; what the child
    wrote is in the file system from then on. *)
Definition wait (proc : child) : M Z := λ s,
  match proc with
  | NeverExits => (Blocked, s)
  | Exits c fs' => (Val (returncode c), {| fs := fs'; trace := trace s |})
  end.

(** [proc.communicate()] *)
Definition communicate (proc : child) : M (bytes * bytes) := λ s,
  match proc with
  | NeverExits => (Blocked, s)
  | Exits c _ => (Val (stdout_data c, stderr_data c), s)
  end.

(** [print(line)] *)
Definition print (line : string) : M unit := λ s,
  (Val (), log (Print line) s).

(** The script, statement by statement. *)
Definition script : M unit :=
  arg ← sys_argv 1;
  let fname := posixpath.basename arg in
  meson_source_root ← os_environ "MESON_SOURCE_ROOT";
  meson_build_root ← os_environ "MESON_BUILD_ROOT";
  let infile := posixpath.join meson_source_root (fname +:+ ".md") in
  let outfile := posixpath.join meson_build_root (fname +:+ ".html") in
  let cmd := ["/usr/bin/pandoc"; "-f"; "markdown"; "-s"; infile; "-o"; outfile] in
  proc ← Popen cmd;
  ret ← wait proc;
  '(output, errors) ← communicate proc;
  if bool_decide (ret ≠ 0%Z) then
    print ("FAILED ret=" +:+ pretty ret);;
    print ("output=" +:+ Bytes.repr output +:+ " errors=" +:+ Bytes.repr errors)
  else
    mret ().

End Effects.

(** Running the script as a fresh process on a file system. *)
Definition run (p : process) (fs0 : filesystem) : res unit * state :=
  script p {| fs := fs0; trace := [] |}.

(** The exit status of the interpreter: 0 when the script runs to its end,
    1 when an exception is not caught, none while it is blocked. *)
Definition exit_status (r : res unit) : option Z :=
  match r with
  | Val _ => Some 0%Z
  | Raise _ => Some 1%Z
  | Blocked => None
  end.

(** The lines printed, the commands started and the variables read. *)
Definition printed (t : list event) : list string :=
  omap (λ e, match e with Print l => Some l | _ => None end) t.

Definition spawned (t : list event) : list (list string) :=
  omap (λ e, match e with Spawn c => Some c | _ => None end) t.

Definition env_reads (t : list event) : list string :=
  omap (λ e, match e with EnvRead k => Some k | _ => None end) t.

(** The text on standard output: [print] ends each line with a newline. *)
Definition newline_char : ascii := ascii_of_nat 10.
Definition newline : string := String newline_char EmptyString.

Definition stdout_text (t : list event) : string :=
  foldr (λ l acc, l +:+ newline +:+ acc) EmptyString (printed t).

(** ** A deterministic converter

    What the converter does is not in the script.  Idempotence of the
    script is stated for a converter that, on the command line the script
    builds, reads nothing but its input file and writes nothing but its
    output file. *)

(** Two runs of the converter, from [fs1] and from [fs2], end alike: the
    same exit status and captured streams, and the file at [o] either
    holds the same content after both or was left as it was by both. *)
Definition same_outcome (o : string) (fs1 fs2 : filesystem)
    (h1 h2 : option child) : Prop :=
  match h1, h2 with
  | None, None => True
  | Some NeverExits, Some NeverExits => True
  | Some (Exits c1 f1), Some (Exits c2 f2) =>
      c1 = c2
      ∧ (f1 !! o = f2 !! o ∨ (f1 !! o = fs1 !! o ∧ f2 !! o = fs2 !! o))
  | _, _ => False
  end.

Record deterministic_converter (os : launcher) : Prop := {
  reads_input_only :
    ∀ (i o : string) (fs1 fs2 : filesystem),
      fs1 !! i = fs2 !! i →
      same_outcome o fs1 fs2
        (os ["/usr/bin/pandoc"; "-f"; "markdown"; "-s"; i; "-o"; o] fs1)
        (os ["/usr/bin/pandoc"; "-f"; "markdown"; "-s"; i; "-o"; o] fs2);
  writes_output_only :
    ∀ (i o : string) (fs0 : filesystem) (c : completed) (fs' : filesystem),
      os ["/usr/bin/pandoc"; "-f"; "markdown"; "-s"; i; "-o"; o] fs0
        = Some (Exits c fs') →
      ∀ q : string, q ≠ o → fs' !! q = fs0 !! q
}.

(** ** Sample processes

    Stand-ins for the converter, and the invocation of the unit test in
    the header of the script. *)

Module Sample.

(** A converter that always fails with status 2 and [boom] on its error
    stream, and touches no file. *)
Definition failing : launcher := λ _ fs0,
  Some (Exits (Completed 2 [] (Bytes.of_string "boom")) fs0).

(** A converter that copies its input to its output with a fixed header,
    and fails with status 1 when there is no input file. *)
Definition copying : launcher := λ cmd fs0,
  match cmd with
  | [_; _; _; _; i; _; o] =>
      match fs0 !! i with
      | Some doc =>
          Some (Exits (Completed 0 [] [])
                  (<[o := Bytes.of_string "<html>" ++ doc]> fs0))
      | None =>
          Some (Exits (Completed 1 [] (Bytes.of_string "no input")) fs0)
      end
  | _ => None
  end.

Definition env : gmap string string :=
  <["MESON_SOURCE_ROOT" := "/home/work"]>
    (<["MESON_BUILD_ROOT" := "/home/work/meson_bld"]> ∅).

Definition env_no_build : gmap string string :=
  <["MESON_SOURCE_ROOT" := "/home/work"]> ∅.

Definition files : filesystem :=
  <["/home/work/README.md" := Bytes.of_string "# ring buffer"]> ∅.

Definition args : list string := ["../scripts/pandoc-html.py"; "README"].

Definition failing_proc : process := Process args env failing.
Definition copying_proc : process := Process args env copying.
Definition no_build_proc : process := Process args env_no_build copying.
Definition no_argument_proc : process :=
  Process ["../scripts/pandoc-html.py"] env copying.
Definition empty_name_proc : process :=
  Process ["../scripts/pandoc-html.py"; EmptyString] env copying.
Definition dir_proc : process :=
  Process ["../scripts/pandoc-html.py"; "dir/README"] env copying.
Definition extra_args_proc : process :=
  Process ["pandoc-html.py"; "README"; "--verbose"; "other"] env copying.

End Sample.

(** ** Shorthands for the statements

    The command line the script builds from its argument and the two
    roots, and the trace of the two environment lookups. *)

Abbreviation command a S D :=
  ["/usr/bin/pandoc"; "-f"; "markdown"; "-s";
   posixpath.join S (posixpath.basename a +:+ ".md"); "-o";
   posixpath.join D (posixpath.basename a +:+ ".html")].

Abbreviation reads_done :=
  [EnvRead "MESON_SOURCE_ROOT"; EnvRead "MESON_BUILD_ROOT"].

(** ** Reading a [repr] back

    A reader for what [Bytes.repr] writes.  It is not part of the script:
    it is here to state that the diagnostic line loses nothing of the
    captured streams. *)

Module Unrepr.

(** The value of a hexadecimal digit of [Py_hexdigits]. *)
Definition unhex (c : ascii) : option N :=
  let n := N_of_ascii c in
  if (48 <=? n)%N && (n <=? 57)%N then Some (n - 48)%N
  else if (97 <=? n)%N && (n <=? 102)%N then Some (n - 87)%N
  else None.

Definition byte_of_N (n : N) : byte :=
  match Byte.of_N n with
  | Some b => b
  | None => x00
  end.

Definition push (b : byte) (r : option (bytes * string)) :
    option (bytes * string) :=
  match r with
  | Some (bs, rest) => Some (b :: bs, rest)
  | None => None
  end.

(** Reads the bytes up to the closing [quote]; gives them with the text
    after the quote. *)
Fixpoint body (quote : ascii) (s : string) : option (bytes * string) :=
  match s with
  | EmptyString => None
  | String c s1 =>
      if Ascii.eqb c quote then Some ([], s1)
      else if Ascii.eqb c Bytes.backslash then
        match s1 with
        | EmptyString => None
        | String e s2 =>
            if Ascii.eqb e "t" then push x09 (body quote s2)
            else if Ascii.eqb e "n" then push x0a (body quote s2)
            else if Ascii.eqb e "r" then push x0d (body quote s2)
            else if Ascii.eqb e "x" then
              match s2 with
              | String h (String l s3) =>
                  match unhex h, unhex l with
                  | Some hi, Some lo =>
                      push (byte_of_N (16 * hi + lo)) (body quote s3)
                  | _, _ => None
                  end
              | _ => None
              end
            else push (byte_of_ascii e) (body quote s2)
        end
      else push (byte_of_ascii c) (body quote s1)
  end.

(** Reads a bytes literal at the head of [s]. *)
Definition literal (s : string) : option (bytes * string) :=
  match s with
  | String b (String quote s') =>
      if Ascii.eqb b "b" then body quote s' else None
  | _ => None
  end.

End Unrepr.

(** ** More sample processes *)

Module Sample2.

(** The unit test of the script, with the roots written with a separator
    at their end. *)
Definition env_slash : gmap string string :=
  <["MESON_SOURCE_ROOT" := "/home/work/"]>
    (<["MESON_BUILD_ROOT" := "/home/work/meson_bld/"]> ∅).

Definition slash_proc : process :=
  Process Sample.args env_slash Sample.copying.

(** A converter that cannot be started. *)
Definition missing : launcher := λ _ _, None.

Definition missing_proc : process :=
  Process Sample.args Sample.env missing.

(** No variable is set. *)
Definition no_env_proc : process :=
  Process Sample.args ∅ Sample.copying.

(** A converter that fails with status 3 and output on both streams. *)
Definition noisy : launcher := λ _ fs0,
  Some (Exits (Completed 3 (Bytes.of_string "it's")
                 [x0a; x22; x27; x5c; xff]) fs0).

Definition noisy_proc : process :=
  Process Sample.args Sample.env noisy.

(** An absolute path as argument. *)
Definition absolute_proc : process :=
  Process ["../scripts/pandoc-html.py"; "/etc/passwd"] Sample.env
    Sample.copying.

End Sample2.

(** ** Proof automation

    [run_path] runs the script symbolically along the lookups and the
    converter outcome that the hypotheses fix. *)

#[local] Arguments Ascii.eqb : simpl never.

Ltac run_path :=
  unfold run, script, mbind, M_bind, mret, M_ret,
    sys_argv, os_environ, Popen, wait, communicate, print, log;
  cbn [fs trace app];
  repeat match goal with
    | H : _ = _ |- _ => rewrite H; cbn [fs trace app returncode stdout_data stderr_data]
    end;
  try reflexivity.

(** * Properties *)

(** ** The library functions and the script on sample inputs *)

Example rfind_last_sep : Str.rfind "/" "a/b/c" = 3%Z.
Proof. reflexivity. Qed.

Example rfind_no_sep : Str.rfind "/" "README" = (-1)%Z.
Proof. reflexivity. Qed.

Example endswith_sep :
  Str.endswith "/" "/home/work/" = true ∧ Str.endswith "/" "/home/work" = false.
Proof. split; reflexivity. Qed.

Example basename_dir_README :
  posixpath.basename "dir/README" = "README".
Proof. reflexivity. Qed.

Example basename_trailing_sep :
  posixpath.basename "a/b/" = EmptyString.
Proof. reflexivity. Qed.

Example basename_keeps_suffix :
  posixpath.basename "/x/README.md" = "README.md".
Proof. reflexivity. Qed.

Example join_plain :
  posixpath.join "/home/work" "README.md" = "/home/work/README.md".
Proof. reflexivity. Qed.

Example join_trailing_sep :
  posixpath.join "/home/work/" "README.md" = "/home/work/README.md".
Proof. reflexivity. Qed.

Example join_absolute :
  posixpath.join "/home/work" "/etc/x" = "/etc/x".
Proof. reflexivity. Qed.

Example join_empty_root :
  posixpath.join EmptyString ".md" = ".md".
Proof. reflexivity. Qed.

Example repr_boom :
  Bytes.repr (Bytes.of_string "boom") = "b'boom'".
Proof. reflexivity. Qed.

Example repr_empty : Bytes.repr [] = "b''".
Proof. reflexivity. Qed.

Example repr_escapes :
  Bytes.repr [x62; x0a; x00; xff; x5c; x09] = "b'b\n\x00\xff\\\t'".
Proof. reflexivity. Qed.

Example repr_smart_quote :
  Bytes.repr (Bytes.of_string "it's")
  = String "b" (String Bytes.dquote ("it's" +:+ Bytes.one Bytes.dquote)).
Proof. reflexivity. Qed.

Example run_failing_converter :
  run Sample.failing_proc Sample.files =
    (Val (),
     {| fs := Sample.files;
        trace :=
          [EnvRead "MESON_SOURCE_ROOT"; EnvRead "MESON_BUILD_ROOT";
           Spawn ["/usr/bin/pandoc"; "-f"; "markdown"; "-s";
                  "/home/work/README.md"; "-o";
                  "/home/work/meson_bld/README.html"];
           Print "FAILED ret=2"; Print "output=b'' errors=b'boom'"] |}).
Proof. reflexivity. Qed.

Example run_working_converter :
  (run Sample.copying_proc Sample.files).1 = Val ()
  ∧ printed (trace (run Sample.copying_proc Sample.files).2) = []
  ∧ fs (run Sample.copying_proc Sample.files).2
      !! "/home/work/meson_bld/README.html"
    = Some (Bytes.of_string "<html># ring buffer").
Proof. repeat split; vm_compute; reflexivity. Qed.

Example run_without_executable :
  (run (Process Sample.args Sample.env (λ _ _, None)) Sample.files).1
  = Raise OSError.
Proof. reflexivity. Qed.

Example run_hanging_converter :
  (run (Process Sample.args Sample.env (λ _ _, Some NeverExits))
     Sample.files).1
  = Blocked.
Proof. reflexivity. Qed.

Example run_signalled_converter :
  printed (trace (run (Process Sample.args Sample.env
                         (λ _ fs0, Some (Exits (Completed (-9) [] []) fs0)))
                    Sample.files).2)
  = ["FAILED ret=-9"; "output=b'' errors=b''"].
Proof. reflexivity. Qed.

(** ** Strings *)

Section StrFacts.
Implicit Types (s t p : string) (c x : ascii).

Lemma append_nil s : EmptyString +:+ s = s.
Proof. reflexivity. Qed.

Lemma append_cons x s t : String x s +:+ t = String x (s +:+ t).
Proof. reflexivity. Qed.

Lemma append_assoc s t u : (s +:+ t) +:+ u = s +:+ t +:+ u.
Proof.
  induction s as [|x s IH]; [done|]. by rewrite !append_cons, IH.
Qed.

Lemma rfind_lower c s : (-1 ≤ Str.rfind c s)%Z.
Proof.
  induction s as [|x s IH]; simpl; [lia|].
  destruct (Z.leb_spec 0 (Str.rfind c s)); [lia|].
  destruct (Ascii.eqb x c); lia.
Qed.

Lemma rfind_absent c s :
  Str.contains c s = false ↔ Str.rfind c s = (-1)%Z.
Proof.
  induction s as [|x s IH]; simpl; [done|].
  pose proof (rfind_lower c s).
  destruct (Z.leb_spec 0 (Str.rfind c s)), (Ascii.eqb x c),
    (Str.contains c s); simpl; split; intros; try done; try lia.
Qed.

Lemma last_append s t : t ≠ EmptyString → Str.last (s +:+ t) = Str.last t.
Proof.
  intros Ht. induction s as [|x s IH]; [done|].
  rewrite append_cons. simpl. rewrite IH.
  destruct (s +:+ t) eqn:E; [|done].
  destruct s; [by rewrite append_nil in E | by rewrite append_cons in E].
Qed.

Lemma endswith_last c s :
  Str.endswith (String c EmptyString) s = true ↔ Str.last s = Some c.
Proof.
  induction s as [|x s IH]; simpl; [done|].
  destruct s as [|y s].
  - simpl. rewrite orb_false_r.
    destruct (Ascii.eqb_spec c x); split; intros; simplify_eq; done.
  - rewrite <- IH. by destruct (Ascii.eqb c x).
Qed.

End StrFacts.

(** ** posixpath *)

Section PathFacts.
Import posixpath.
Implicit Types (s t d b : string) (c x : ascii).

Lemma contains_append c s t :
  Str.contains c (s +:+ t) = Str.contains c s || Str.contains c t.
Proof.
  induction s as [|x s IH]; [done|].
  rewrite append_cons. simpl. rewrite IH. by rewrite orb_assoc.
Qed.

Lemma last_contains c s : Str.last s = Some c → Str.contains c s = true.
Proof.
  induction s as [|x s IH]; [done|]. simpl.
  destruct s as [|y s].
  - intros [= ->]. by rewrite Ascii.eqb_refl.
  - intros H. rewrite (IH H). apply orb_true_r.
Qed.

(** [basename] by recursion on the path. *)
Lemma basename_cons x s :
  basename (String x s) =
    if Str.contains sep_char s then basename s
    else if Ascii.eqb x sep_char then s
    else String x s.
Proof.
  unfold basename. simpl.
  pose proof (rfind_lower sep_char s) as Hlo.
  pose proof (rfind_absent sep_char s) as Habs.
  destruct (Z.leb_spec 0 (Str.rfind sep_char s)) as [Hr|Hr].
  - destruct (Str.contains sep_char s).
    + replace (Z.to_nat (Str.rfind sep_char s + 1 + 1))
        with (S (Z.to_nat (Str.rfind sep_char s + 1))) by lia.
      done.
    + destruct Habs as [Habs _]. specialize (Habs eq_refl). lia.
  - destruct (Str.contains sep_char s).
    + destruct Habs as [_ Habs]. discriminate Habs. lia.
    + by destruct (Ascii.eqb x sep_char).
Qed.

Lemma basename_plain s :
  Str.contains sep_char s = false → basename s = s.
Proof.
  intros H. apply rfind_absent in H. unfold basename. by rewrite H.
Qed.

(** The base name holds no separator. *)
Lemma basename_no_sep s : Str.contains sep_char (basename s) = false.
Proof.
  induction s as [|x s IH]; [done|].
  rewrite basename_cons.
  destruct (Str.contains sep_char s) eqn:Hs; [done|].
  destruct (Ascii.eqb x sep_char) eqn:Hx; [done|].
  simpl. by rewrite Hx, Hs.
Qed.

(** The base name is what is left of the path after a directory part
    that is empty or ends with the separator. *)
Lemma basename_split s :
  ∃ d, s = d +:+ basename s ∧ (d = EmptyString ∨ Str.last d = Some sep_char).
Proof.
  induction s as [|x s (d & Hd & Hlast)].
  - by exists EmptyString; split; [|left].
  - rewrite basename_cons.
    destruct (Str.contains sep_char s) eqn:Hs.
    + exists (String x d). split.
      * by rewrite append_cons, <- Hd.
      * right. destruct Hlast as [->|Hl].
        -- rewrite append_nil in Hd. rewrite Hd in Hs.
           by rewrite basename_no_sep in Hs.
        -- simpl. by destruct d.
    + destruct (Ascii.eqb_spec x sep_char) as [->|Hx].
      * exists sep. by split; [|right].
      * by exists EmptyString; split; [|left].
Qed.

(** ... and it is the only such split of the path. *)
Lemma basename_unique d b :
  (d = EmptyString ∨ Str.last d = Some sep_char) →
  Str.contains sep_char b = false →
  basename (d +:+ b) = b.
Proof.
  intros Hd Hb. induction d as [|x d IH].
  - rewrite append_nil. by apply basename_plain.
  - destruct Hd as [|Hl]; [done|].
    rewrite append_cons, basename_cons, contains_append, Hb, orb_false_r.
    destruct d as [|y d].
    + simpl in *. injection Hl as ->. rewrite append_nil.
      by rewrite Ascii.eqb_refl.
    + rewrite (last_contains sep_char (String y d)) by done.
      apply IH. by right.
Qed.

Lemma startswith_basename a suffix :
  Str.startswith sep suffix = false →
  Str.startswith sep (basename a +:+ suffix) = false.
Proof.
  intros Hsuf. pose proof (basename_no_sep a) as Hno.
  destruct (basename a) as [|x b]; [done|].
  rewrite append_cons. simpl in *.
  apply orb_false_elim in Hno as [Hx _].
  rewrite Ascii.eqb_sym. by rewrite Hx.
Qed.

(** [join] on a second argument that is not absolute. *)
Lemma join_relative a b :
  Str.startswith sep b = false →
  join a b =
    if String.eqb a EmptyString || Str.endswith sep a then a +:+ b
    else a +:+ sep +:+ b.
Proof. intros H. unfold join. by rewrite H. Qed.

Lemma last_join a b :
  b ≠ EmptyString → Str.last (join a b) = Str.last b.
Proof.
  intros Hb. unfold join.
  destruct (Str.startswith sep b); [done|].
  destruct (_ || _); by rewrite ?last_append.
Qed.

(** The input and the output of the script are never the same path. *)
Lemma infile_outfile_differ S D fname :
  join S (fname +:+ ".md") ≠ join D (fname +:+ ".html").
Proof.
  intros H. apply (f_equal Str.last) in H.
  rewrite !last_join, !last_append in H; try done.
  all: by destruct fname.
Qed.

End PathFacts.

(** ** What [print] writes *)

Section PrintFacts.

Abbreviation nl := newline_char.

Lemma repr_byte_one_line q b :
  q = Bytes.squote ∨ q = Bytes.dquote →
  Str.contains nl (Bytes.repr_byte q b) = false.
Proof. intros [-> | ->]; destruct b; reflexivity. Qed.

Lemma repr_body_one_line q bs :
  q = Bytes.squote ∨ q = Bytes.dquote →
  Str.contains nl (Bytes.repr_body q bs) = false.
Proof.
  intros Hq. induction bs as [|b bs IH]; simpl.
  - by destruct Hq as [-> | ->].
  - by rewrite contains_append, repr_byte_one_line, IH.
Qed.

Lemma quote_of_cases bs :
  Bytes.quote_of bs = Bytes.squote ∨ Bytes.quote_of bs = Bytes.dquote.
Proof. unfold Bytes.quote_of. destruct (_ && _); auto. Qed.

(** The [repr] of bytes holds no newline, whatever the bytes. *)
Lemma repr_one_line bs : Str.contains nl (Bytes.repr bs) = false.
Proof.
  unfold Bytes.repr. pose proof (quote_of_cases bs) as Hq.
  cbn [Str.contains]. rewrite repr_body_one_line by done.
  by destruct Hq as [-> | ->].
Qed.

Lemma repr_byte_plain b :
  Bytes.plain b = true →
  Bytes.repr_byte Bytes.squote b = Bytes.one (ascii_of_byte b)
  ∧ Ascii.eqb (ascii_of_byte b) Bytes.squote = false.
Proof. destruct b; intros H; try discriminate H; split; reflexivity. Qed.

(** Bytes of plain text are shown as they are, between single quotes. *)
Lemma repr_plain bs :
  forallb Bytes.plain bs = true →
  Bytes.repr bs = "b'" +:+ Bytes.to_string bs +:+ "'".
Proof.
  intros Hplain.
  assert (Bytes.has Bytes.squote bs = false
          ∧ Bytes.repr_body Bytes.squote bs = Bytes.to_string bs +:+ "'")
    as [Hq Hbody].
  { induction bs as [|b bs IH]; [done|].
    cbn [forallb] in Hplain. apply andb_prop in Hplain as [Hb Hbs].
    destruct (IH Hbs) as [IHq IHbody].
    destruct (repr_byte_plain b Hb) as [Hrepr Hne].
    split.
    - unfold Bytes.has in *. cbn [existsb]. by rewrite Hne, IHq.
    - cbn [Bytes.repr_body]. by rewrite Hrepr, IHbody. }
  unfold Bytes.repr, Bytes.quote_of. rewrite Hq. cbn [andb].
  by rewrite Hbody.
Qed.

Lemma pretty_N_go_one_line (x : N) (s : string) :
  Str.contains nl (pretty_N_go x s) = Str.contains nl s.
Proof.
  revert s. induction (N.lt_wf_0 x) as [x _ IH]; intros s.
  destruct (decide (x = 0%N)) as [->|Hx].
  - by rewrite pretty_N_go_0.
  - rewrite pretty_N_go_step by lia.
    rewrite IH by (apply N.div_lt; lia).
    cbn [Str.contains]. unfold pretty_N_char.
    by repeat case_match.
Qed.

(** The decimal form of the exit status holds no newline. *)
Lemma pretty_Z_one_line (z : Z) : Str.contains nl (pretty z) = false.
Proof.
  assert (∀ x : positive, Str.contains nl (pretty x) = false) as Hpos.
  { intros x. unfold pretty, pretty_positive, pretty, pretty_N.
    destruct (decide _); [done | by rewrite pretty_N_go_one_line]. }
  unfold pretty, pretty_Z. destruct z as [|x|x]; [done | apply Hpos |].
  rewrite contains_append. cbn [Str.contains orb].
  rewrite orb_false_r. apply Hpos.
Qed.

End PrintFacts.

(** ** The paths through the script

    One lemma for each way the script can end, in the order of its
    statements. *)

Section Paths.
Variables (p : process) (fs0 : filesystem).

Lemma run_no_argument :
  argv p !! 1 = None →
  run p fs0 = (Raise IndexError, {| fs := fs0; trace := [] |}).
Proof. intros H. run_path. Qed.

Lemma run_no_source_root a :
  argv p !! 1 = Some a →
  environ p !! "MESON_SOURCE_ROOT" = None →
  run p fs0 = (Raise (KeyError "MESON_SOURCE_ROOT"),
               {| fs := fs0; trace := [EnvRead "MESON_SOURCE_ROOT"] |}).
Proof. intros Ha HS. run_path. Qed.

Lemma run_no_build_root a S :
  argv p !! 1 = Some a →
  environ p !! "MESON_SOURCE_ROOT" = Some S →
  environ p !! "MESON_BUILD_ROOT" = None →
  run p fs0 = (Raise (KeyError "MESON_BUILD_ROOT"),
               {| fs := fs0; trace := reads_done |}).
Proof. intros Ha HS HD. run_path. Qed.

Section Spawned.
Variables (a S D : string).
Hypothesis Ha : argv p !! 1 = Some a.
Hypothesis HS : environ p !! "MESON_SOURCE_ROOT" = Some S.
Hypothesis HD : environ p !! "MESON_BUILD_ROOT" = Some D.

Lemma run_spawn_fails :
  os_exec p (command a S D) fs0 = None →
  run p fs0 = (Raise OSError,
               {| fs := fs0;
                  trace := reads_done ++ [Spawn (command a S D)] |}).
Proof. intros Hos. run_path. Qed.

Lemma run_never_exits :
  os_exec p (command a S D) fs0 = Some NeverExits →
  run p fs0 = (Blocked,
               {| fs := fs0;
                  trace := reads_done ++ [Spawn (command a S D)] |}).
Proof. intros Hos. run_path. Qed.

Lemma run_exits c fs' :
  os_exec p (command a S D) fs0 = Some (Exits c fs') →
  run p fs0 =
    (Val (),
     {| fs := fs';
        trace :=
          reads_done ++ [Spawn (command a S D)] ++
          if bool_decide (returncode c ≠ 0%Z) then
            [Print ("FAILED ret=" +:+ pretty (returncode c));
             Print ("output=" +:+ Bytes.repr (stdout_data c) +:+
                    " errors=" +:+ Bytes.repr (stderr_data c))]
          else [] |}).
Proof. intros Hos. run_path. by destruct (bool_decide _). Qed.

(** Once the argument and the two variables are there, the script
    starts the converter, whatever becomes of it, and then at most
    prints. *)
Lemma run_reaches_spawn :
  ∃ r fs1 rest,
    run p fs0 = (r, {| fs := fs1;
                       trace := reads_done ++ [Spawn (command a S D)] ++ rest |})
    ∧ spawned rest = [] ∧ env_reads rest = []
    ∧ (∀ e, r = Raise e → e = OSError).
Proof.
  destruct (os_exec p (command a S D) fs0) as [[|c fs']|] eqn:Hos.
  - eexists _, _, []. rewrite (run_never_exits Hos). by repeat split.
  - eexists _, _, _. rewrite (run_exits c fs' Hos).
    split; [reflexivity|]. by destruct (bool_decide _).
  - eexists _, _, []. rewrite (run_spawn_fails Hos).
    repeat split; try done. by intros e [= <-].
Qed.

Lemma spawned_run : spawned (trace (run p fs0).2) = [command a S D].
Proof.
  destruct run_reaches_spawn as (r & fs1 & rest & -> & Hsp & _).
  cbn [snd trace]. unfold spawned in *.
  by rewrite !omap_app, Hsp.
Qed.

End Spawned.

(** The converter is started only after all three lookups. *)
Lemma spawned_inv cmd :
  cmd ∈ spawned (trace (run p fs0).2) →
  ∃ a S D,
    argv p !! 1 = Some a
    ∧ environ p !! "MESON_SOURCE_ROOT" = Some S
    ∧ environ p !! "MESON_BUILD_ROOT" = Some D
    ∧ cmd = command a S D.
Proof.
  destruct (argv p !! 1) as [a|] eqn:Ha;
    [|rewrite (run_no_argument Ha); by intros ?%elem_of_nil].
  destruct (environ p !! "MESON_SOURCE_ROOT") as [S|] eqn:HS;
    [|rewrite (run_no_source_root a Ha HS); by intros ?%elem_of_nil].
  destruct (environ p !! "MESON_BUILD_ROOT") as [D|] eqn:HD;
    [|rewrite (run_no_build_root a S Ha HS HD); by intros ?%elem_of_nil].
  rewrite (spawned_run a S D Ha HS HD).
  intros ->%list_elem_of_singleton. by exists a, S, D.
Qed.

End Paths.

(** ** The properties of the specification *)

(** C1.  For every first argument with base name [B], source root [S] and
    build root [D], the one command the script starts carries
    [os.path.join(S, B + '.md')] as its input path and
    [os.path.join(D, B + '.html')] as its output path.  Because [B] holds
    no separator, the join never discards the root: the path is the root,
    a separator unless the root is empty or already ends with one, the
    base name and the suffix. *)
Theorem paths_constructed (p : process) (fs0 : filesystem) (a S D : string) :
  argv p !! 1 = Some a →
  environ p !! "MESON_SOURCE_ROOT" = Some S →
  environ p !! "MESON_BUILD_ROOT" = Some D →
  ∃ cmd infile outfile,
    spawned (trace (run p fs0).2) = [cmd]
    ∧ cmd !! 4 = Some infile ∧ cmd !! 6 = Some outfile
    ∧ infile = posixpath.join S (posixpath.basename a +:+ ".md")
    ∧ outfile = posixpath.join D (posixpath.basename a +:+ ".html")
    ∧ infile =
        (if String.eqb S EmptyString || Str.endswith posixpath.sep S
         then S +:+ posixpath.basename a +:+ ".md"
         else S +:+ "/" +:+ posixpath.basename a +:+ ".md")
    ∧ outfile =
        (if String.eqb D EmptyString || Str.endswith posixpath.sep D
         then D +:+ posixpath.basename a +:+ ".html"
         else D +:+ "/" +:+ posixpath.basename a +:+ ".html").
Proof.
  intros Ha HS HD. eexists _, _, _.
  split; [by apply spawned_run|].
  do 4 (split; [reflexivity|]).
  split; apply join_relative, startswith_basename; reflexivity.
Qed.

Lemma paths_constructed_witness :
  ∃ cmd infile outfile,
    spawned (trace (run Sample.failing_proc Sample.files).2) = [cmd]
    ∧ cmd !! 4 = Some infile ∧ cmd !! 6 = Some outfile
    ∧ infile = posixpath.join "/home/work" (posixpath.basename "README" +:+ ".md")
    ∧ outfile = posixpath.join "/home/work/meson_bld"
                  (posixpath.basename "README" +:+ ".html")
    ∧ infile = "/home/work/README.md"
    ∧ outfile = "/home/work/meson_bld/README.html".
Proof.
  apply (paths_constructed Sample.failing_proc Sample.files
           "README" "/home/work" "/home/work/meson_bld");
    reflexivity.
Defined.

(** C2.  When the converter has exited, the script prints if and only if
    the exit status is not zero.  It then prints two lines on standard
    output: [FAILED ret=] with the status in decimal, then [output=] and
    [errors=] with the [repr] of the two captured streams; neither line
    holds a newline of its own.  On status zero it prints nothing. *)
Theorem diagnostics_iff_failure (p : process) (fs0 : filesystem)
    (a S D : string) (c : completed) (fs' : filesystem) :
  argv p !! 1 = Some a →
  environ p !! "MESON_SOURCE_ROOT" = Some S →
  environ p !! "MESON_BUILD_ROOT" = Some D →
  os_exec p (command a S D) fs0 = Some (Exits c fs') →
  let t := trace (run p fs0).2 in
  let line1 := "FAILED ret=" +:+ pretty (returncode c) in
  let line2 := "output=" +:+ Bytes.repr (stdout_data c) +:+
               " errors=" +:+ Bytes.repr (stderr_data c) in
  (printed t ≠ [] ↔ returncode c ≠ 0%Z)
  ∧ (returncode c ≠ 0%Z →
       printed t = [line1; line2]
       ∧ stdout_text t = line1 +:+ newline +:+ line2 +:+ newline
       ∧ Str.contains newline_char line1 = false
       ∧ Str.contains newline_char line2 = false)
  ∧ (returncode c = 0%Z → printed t = [] ∧ stdout_text t = EmptyString).
Proof.
  intros Ha HS HD Hos t line1 line2. subst t.
  rewrite (run_exits p fs0 a S D Ha HS HD c fs' Hos). cbn [snd trace].
  unfold stdout_text.
  destruct (decide (returncode c = 0%Z)) as [Hz|Hnz].
  - rewrite bool_decide_eq_false_2 by (intros H; by apply H).
    repeat split; try done.
  - rewrite bool_decide_eq_true_2 by done.
    repeat split; try done.
    + subst line1. rewrite contains_append. apply orb_false_intro; [done|].
      apply pretty_Z_one_line.
    + subst line2. rewrite !contains_append, !repr_one_line. done.
Qed.

Lemma diagnostics_iff_failure_witness :
  let t := trace (run Sample.failing_proc Sample.files).2 in
  (printed t ≠ [] ↔ 2%Z ≠ 0%Z)
  ∧ (2%Z ≠ 0%Z →
       printed t = ["FAILED ret=2"; "output=b'' errors=b'boom'"]
       ∧ stdout_text t =
           "FAILED ret=2" +:+ newline +:+
           "output=b'' errors=b'boom'" +:+ newline
       ∧ Str.contains newline_char "FAILED ret=2" = false
       ∧ Str.contains newline_char "output=b'' errors=b'boom'" = false)
  ∧ (2%Z = 0%Z → printed t = [] ∧ stdout_text t = EmptyString).
Proof.
  apply (diagnostics_iff_failure Sample.failing_proc Sample.files
           "README" "/home/work" "/home/work/meson_bld"
           (Completed 2 [] (Bytes.of_string "boom")) Sample.files);
    reflexivity.
Defined.

(** C3.  If [MESON_SOURCE_ROOT] or [MESON_BUILD_ROOT] is not set, the
    script ends with an uncaught [LookupError], it has started no
    subprocess, and the file system is as it was.  When the argument is
    there, the error is the [KeyError] of a variable that is not set. *)
Theorem missing_environment (p : process) (fs0 : filesystem) :
  environ p !! "MESON_SOURCE_ROOT" = None
  ∨ environ p !! "MESON_BUILD_ROOT" = None →
  ∃ e,
    (run p fs0).1 = Raise e
    ∧ is_LookupError e = true
    ∧ exit_status (run p fs0).1 = Some 1%Z
    ∧ spawned (trace (run p fs0).2) = []
    ∧ printed (trace (run p fs0).2) = []
    ∧ fs (run p fs0).2 = fs0
    ∧ (is_Some (argv p !! 1) →
       ∃ k, e = KeyError k ∧ environ p !! k = None
            ∧ (k = "MESON_SOURCE_ROOT" ∨ k = "MESON_BUILD_ROOT")).
Proof.
  intros Hmiss.
  destruct (argv p !! 1) as [a|] eqn:Ha.
  - destruct (environ p !! "MESON_SOURCE_ROOT") as [S|] eqn:HS.
    + destruct Hmiss as [?|HD]; [done|].
      rewrite (run_no_build_root p fs0 a S Ha HS HD).
      eexists. repeat split; try done; intros _; eexists; eauto.
    + rewrite (run_no_source_root p fs0 a Ha HS).
      eexists. repeat split; try done; intros _; eexists; eauto.
  - rewrite (run_no_argument p fs0 Ha).
    eexists. by repeat split.
Qed.

Lemma missing_environment_witness :
  Sample.env_no_build !! "MESON_BUILD_ROOT" = None
  ∧ ∃ e,
    (run Sample.no_build_proc Sample.files).1 = Raise e
    ∧ is_LookupError e = true
    ∧ exit_status (run Sample.no_build_proc Sample.files).1 = Some 1%Z
    ∧ spawned (trace (run Sample.no_build_proc Sample.files).2) = []
    ∧ printed (trace (run Sample.no_build_proc Sample.files).2) = []
    ∧ fs (run Sample.no_build_proc Sample.files).2 = Sample.files
    ∧ (is_Some (Sample.args !! 1) →
       ∃ k, e = KeyError k ∧ Sample.env_no_build !! k = None
            ∧ (k = "MESON_SOURCE_ROOT" ∨ k = "MESON_BUILD_ROOT")).
Proof.
  split; [reflexivity|].
  apply (missing_environment Sample.no_build_proc Sample.files).
  right. reflexivity.
Defined.

(** C4.  When the converter exits with a status that is not zero, the
    script still runs to its end: no exception is raised, and the exit
    status of the script is 0, the one of normal completion, which is not
    the status of the converter. *)
Theorem failure_not_propagated (p : process) (fs0 : filesystem)
    (a S D : string) (c : completed) (fs' : filesystem) :
  argv p !! 1 = Some a →
  environ p !! "MESON_SOURCE_ROOT" = Some S →
  environ p !! "MESON_BUILD_ROOT" = Some D →
  os_exec p (command a S D) fs0 = Some (Exits c fs') →
  returncode c ≠ 0%Z →
  (run p fs0).1 = Val ()
  ∧ exit_status (run p fs0).1 = Some 0%Z
  ∧ exit_status (run p fs0).1 ≠ Some (returncode c)
  ∧ printed (trace (run p fs0).2) ≠ [].
Proof.
  intros Ha HS HD Hos Hnz.
  rewrite (run_exits p fs0 a S D Ha HS HD c fs' Hos). cbn [fst snd trace].
  rewrite bool_decide_eq_true_2 by done.
  repeat split; try done. cbn [exit_status]. congruence.
Qed.

Lemma failure_not_propagated_witness :
  2%Z ≠ 0%Z
  ∧ (run Sample.failing_proc Sample.files).1 = Val ()
  ∧ exit_status (run Sample.failing_proc Sample.files).1 = Some 0%Z
  ∧ exit_status (run Sample.failing_proc Sample.files).1 ≠ Some 2%Z
  ∧ printed (trace (run Sample.failing_proc Sample.files).2) ≠ [].
Proof.
  split; [done|].
  apply (failure_not_propagated Sample.failing_proc Sample.files
           "README" "/home/work" "/home/work/meson_bld"
           (Completed 2 [] (Bytes.of_string "boom")) Sample.files);
    try reflexivity.
  done.
Defined.

(** C5.  Whatever the invocation, a command handed to [Popen] is exactly
    [/usr/bin/pandoc -f markdown -s <input path> -o <output path>]: seven
    tokens, the first an absolute path (so no [PATH] search takes place),
    the flags fixed, and the two paths the ones built from the argument
    and the two variables.  It is the only command of the run. *)
Theorem command_fixed (p : process) (fs0 : filesystem) (cmd : list string) :
  cmd ∈ spawned (trace (run p fs0).2) →
  ∃ a S D,
    argv p !! 1 = Some a
    ∧ environ p !! "MESON_SOURCE_ROOT" = Some S
    ∧ environ p !! "MESON_BUILD_ROOT" = Some D
    ∧ cmd = ["/usr/bin/pandoc"; "-f"; "markdown"; "-s";
             posixpath.join S (posixpath.basename a +:+ ".md"); "-o";
             posixpath.join D (posixpath.basename a +:+ ".html")]
    ∧ spawned (trace (run p fs0).2) = [cmd]
    ∧ (∃ exe, cmd !! 0 = Some exe
              ∧ Str.startswith posixpath.sep exe = true).
Proof.
  intros Hin. destruct (spawned_inv p fs0 cmd Hin) as (a & S & D & Ha & HS & HD & ->).
  exists a, S, D. repeat split; try done.
  - by apply spawned_run.
  - by eexists.
Qed.

Lemma command_fixed_witness :
  ["/usr/bin/pandoc"; "-f"; "markdown"; "-s"; "/home/work/README.md"; "-o";
   "/home/work/meson_bld/README.html"]
    ∈ spawned (trace (run Sample.copying_proc Sample.files).2)
  ∧ ∃ a S D,
    Sample.args !! 1 = Some a
    ∧ Sample.env !! "MESON_SOURCE_ROOT" = Some S
    ∧ Sample.env !! "MESON_BUILD_ROOT" = Some D
    ∧ ["/usr/bin/pandoc"; "-f"; "markdown"; "-s"; "/home/work/README.md";
       "-o"; "/home/work/meson_bld/README.html"]
      = ["/usr/bin/pandoc"; "-f"; "markdown"; "-s";
         posixpath.join S (posixpath.basename a +:+ ".md"); "-o";
         posixpath.join D (posixpath.basename a +:+ ".html")]
    ∧ spawned (trace (run Sample.copying_proc Sample.files).2)
      = [["/usr/bin/pandoc"; "-f"; "markdown"; "-s"; "/home/work/README.md";
          "-o"; "/home/work/meson_bld/README.html"]]
    ∧ (∃ exe,
         ["/usr/bin/pandoc"; "-f"; "markdown"; "-s"; "/home/work/README.md";
          "-o"; "/home/work/meson_bld/README.html"] !! 0 = Some exe
         ∧ Str.startswith posixpath.sep exe = true).
Proof.
  assert (["/usr/bin/pandoc"; "-f"; "markdown"; "-s"; "/home/work/README.md";
           "-o"; "/home/work/meson_bld/README.html"]
            ∈ spawned (trace (run Sample.copying_proc Sample.files).2)) as Hin.
  { vm_compute. apply list_elem_of_here. }
  split; [exact Hin|].
  exact (command_fixed Sample.copying_proc Sample.files _ Hin).
Defined.

(** C6.  The base name the paths are built from is the final component of
    the first argument: the argument is a directory part, empty or ending
    with the separator, followed by the base name, which holds no
    separator; there is only one such split.  Nothing else is taken away
    from the argument, and only the fixed suffixes are added. *)
Theorem base_name_is_final_component (p : process) (fs0 : filesystem)
    (a S D : string) :
  argv p !! 1 = Some a →
  environ p !! "MESON_SOURCE_ROOT" = Some S →
  environ p !! "MESON_BUILD_ROOT" = Some D →
  ∃ dir B,
    a = dir +:+ B
    ∧ (dir = EmptyString ∨ Str.endswith posixpath.sep dir = true)
    ∧ Str.contains posixpath.sep_char B = false
    ∧ B = posixpath.basename a
    ∧ (∀ dir' B',
         a = dir' +:+ B' →
         dir' = EmptyString ∨ Str.endswith posixpath.sep dir' = true →
         Str.contains posixpath.sep_char B' = false →
         B' = B)
    ∧ spawned (trace (run p fs0).2) =
        [["/usr/bin/pandoc"; "-f"; "markdown"; "-s";
          posixpath.join S (B +:+ ".md"); "-o";
          posixpath.join D (B +:+ ".html")]].
Proof.
  intros Ha HS HD.
  destruct (basename_split a) as (dir & Hsplit & Hdir).
  exists dir, (posixpath.basename a). split; [exact Hsplit|].
  split. { destruct Hdir as [->|Hl]; [by left | right; by apply endswith_last]. }
  split; [apply basename_no_sep|]. split; [reflexivity|].
  split; [|by apply spawned_run].
  intros dir' B' -> Hdir' HB'. symmetry. apply basename_unique; [|done].
  destruct Hdir' as [->|Hl]; [by left | right; by apply endswith_last].
Qed.

Lemma base_name_is_final_component_witness :
  ∃ dir B,
    "dir/README" = dir +:+ B
    ∧ (dir = EmptyString ∨ Str.endswith posixpath.sep dir = true)
    ∧ Str.contains posixpath.sep_char B = false
    ∧ B = "README"
    ∧ (∀ dir' B',
         "dir/README" = dir' +:+ B' →
         dir' = EmptyString ∨ Str.endswith posixpath.sep dir' = true →
         Str.contains posixpath.sep_char B' = false →
         B' = B)
    ∧ spawned (trace (run Sample.dir_proc Sample.files).2) =
        [["/usr/bin/pandoc"; "-f"; "markdown"; "-s";
          posixpath.join "/home/work" (B +:+ ".md"); "-o";
          posixpath.join "/home/work/meson_bld" (B +:+ ".html")]].
Proof.
  apply (base_name_is_final_component Sample.dir_proc Sample.files
           "dir/README" "/home/work" "/home/work/meson_bld");
    reflexivity.
Defined.

(** C7.  With the empty string as argument nothing is checked: both
    variables are read and the converter is started, on the paths
    [join(S, '.md')] and [join(D, '.html')], which for a root that is not
    empty and does not end with the separator are [S/.md] and [D/.html].
    The script does not end with a lookup error. *)
Theorem empty_base_name (p : process) (fs0 : filesystem) (S D : string) :
  argv p !! 1 = Some EmptyString →
  environ p !! "MESON_SOURCE_ROOT" = Some S →
  environ p !! "MESON_BUILD_ROOT" = Some D →
  ∃ rest,
    trace (run p fs0).2 =
      [EnvRead "MESON_SOURCE_ROOT"; EnvRead "MESON_BUILD_ROOT";
       Spawn ["/usr/bin/pandoc"; "-f"; "markdown"; "-s";
              posixpath.join S ".md"; "-o"; posixpath.join D ".html"]]
      ++ rest
    ∧ spawned rest = []
    ∧ (∀ e, (run p fs0).1 = Raise e → is_LookupError e = false)
    ∧ (S ≠ EmptyString → Str.endswith posixpath.sep S = false →
       posixpath.join S ".md" = S +:+ "/.md")
    ∧ (D ≠ EmptyString → Str.endswith posixpath.sep D = false →
       posixpath.join D ".html" = D +:+ "/.html").
Proof.
  intros Ha HS HD.
  destruct (run_reaches_spawn p fs0 EmptyString S D Ha HS HD)
    as (r & fs1 & rest & Hrun & Hsp & _ & Hexn).
  exists rest. rewrite Hrun. cbn [fst snd trace].
  split; [reflexivity|]. split; [exact Hsp|].
  split. { intros e He. by rewrite (Hexn e He). }
  split; intros Hne Hend; unfold posixpath.join; rewrite Hend;
    apply String.eqb_neq in Hne; by rewrite Hne.
Qed.

Lemma empty_base_name_witness :
  ∃ rest,
    trace (run Sample.empty_name_proc Sample.files).2 =
      [EnvRead "MESON_SOURCE_ROOT"; EnvRead "MESON_BUILD_ROOT";
       Spawn ["/usr/bin/pandoc"; "-f"; "markdown"; "-s";
              "/home/work/.md"; "-o"; "/home/work/meson_bld/.html"]]
      ++ rest
    ∧ spawned rest = []
    ∧ (∀ e, (run Sample.empty_name_proc Sample.files).1 = Raise e →
            is_LookupError e = false)
    ∧ ("/home/work" ≠ EmptyString →
       Str.endswith posixpath.sep "/home/work" = false →
       posixpath.join "/home/work" ".md" = "/home/work" +:+ "/.md")
    ∧ ("/home/work/meson_bld" ≠ EmptyString →
       Str.endswith posixpath.sep "/home/work/meson_bld" = false →
       posixpath.join "/home/work/meson_bld" ".html"
       = "/home/work/meson_bld" +:+ "/.html").
Proof.
  apply (empty_base_name Sample.empty_name_proc Sample.files
           "/home/work" "/home/work/meson_bld");
    reflexivity.
Defined.

(** ** Running twice *)

Section Rerun.
Variables (p : process) (fs0 : filesystem).
Hypothesis Hdet : deterministic_converter (os_exec p).

(** A converter that has run once on its input does the same when it is
    run again on what it left behind, and leaves it as it is. *)
Lemma converter_again i o c fs' :
  i ≠ o →
  os_exec p ["/usr/bin/pandoc"; "-f"; "markdown"; "-s"; i; "-o"; o] fs0
    = Some (Exits c fs') →
  os_exec p ["/usr/bin/pandoc"; "-f"; "markdown"; "-s"; i; "-o"; o] fs'
    = Some (Exits c fs').
Proof.
  intros Hio Hos.
  pose proof (writes_output_only _ Hdet i o fs0 c fs' Hos) as Hframe.
  pose proof (reads_input_only _ Hdet i o fs0 fs') as Hsame.
  rewrite Hos in Hsame. specialize (Hsame (eq_sym (Hframe i Hio))).
  destruct (os_exec p _ fs') as [[|c2 fs2]|] eqn:Hos2; try done.
  destruct Hsame as [<- Hout].
  pose proof (writes_output_only _ Hdet i o fs' c fs2 Hos2) as Hframe2.
  f_equal. f_equal. apply map_eq. intros q.
  destruct (decide (q = o)) as [->|Hq]; [|by apply Hframe2].
  destruct Hout as [Hout | [_ Hout]]; done.
Qed.

Lemma rerun_same :
  run p (fs (run p fs0).2) = run p fs0.
Proof.
  destruct (argv p !! 1) as [a|] eqn:Ha;
    [|by rewrite !run_no_argument].
  destruct (environ p !! "MESON_SOURCE_ROOT") as [S|] eqn:HS;
    [|by rewrite !(run_no_source_root _ _ a)].
  destruct (environ p !! "MESON_BUILD_ROOT") as [D|] eqn:HD;
    [|by rewrite !(run_no_build_root _ _ a S)].
  destruct (os_exec p (command a S D) fs0) as [[|c fs']|] eqn:Hos.
  - rewrite (run_never_exits p fs0 a S D Ha HS HD Hos). cbn [snd fs].
    by apply run_never_exits.
  - rewrite (run_exits p fs0 a S D Ha HS HD c fs' Hos). cbn [snd fs].
    apply (run_exits p fs' a S D Ha HS HD c fs').
    apply converter_again; [apply infile_outfile_differ | done].
  - rewrite (run_spawn_fails p fs0 a S D Ha HS HD Hos). cbn [snd fs].
    by apply run_spawn_fails.
Qed.

End Rerun.

(** C8.  With a deterministic converter, running the script a second time
    on the file system the first run left behind gives the same file
    system again (so the output file has the same content), prints the
    same lines and ends the same way. *)
Theorem rerun_idempotent (p : process) (fs0 : filesystem) :
  deterministic_converter (os_exec p) →
  let first := run p fs0 in
  let second := run p (fs first.2) in
  fs second.2 = fs first.2
  ∧ printed (trace second.2) = printed (trace first.2)
  ∧ stdout_text (trace second.2) = stdout_text (trace first.2)
  ∧ second.1 = first.1.
Proof.
  intros Hdet first second. subst first second.
  by rewrite (rerun_same p fs0 Hdet).
Qed.

Lemma copying_deterministic : deterministic_converter Sample.copying.
Proof.
  split.
  - intros i o fs1 fs2 Hin. unfold Sample.copying. cbv iota beta.
    rewrite Hin.
    destruct (fs2 !! i) as [doc|]; cbn [same_outcome].
    + split; [done|]. left. by rewrite !lookup_insert_eq.
    + split; [done|]. by right.
  - intros i o fs0 c fs'. unfold Sample.copying. cbv iota beta.
    destruct (fs0 !! i) as [doc|]; intros [= <- <-] q Hq; [|done].
    by rewrite lookup_insert_ne.
Qed.

Lemma rerun_idempotent_witness :
  deterministic_converter (os_exec Sample.copying_proc)
  ∧ let first := run Sample.copying_proc Sample.files in
    let second := run Sample.copying_proc (fs first.2) in
    fs second.2 = fs first.2
    ∧ printed (trace second.2) = printed (trace first.2)
    ∧ stdout_text (trace second.2) = stdout_text (trace first.2)
    ∧ second.1 = first.1.
Proof.
  split; [exact copying_deterministic|].
  exact (rerun_idempotent Sample.copying_proc Sample.files
           copying_deterministic).
Defined.

Example rerun_output_file :
  fs (run Sample.copying_proc Sample.files).2
    !! "/home/work/meson_bld/README.html"
  = Some (Bytes.of_string "<html># ring buffer")
  ∧ fs (run Sample.copying_proc
          (fs (run Sample.copying_proc Sample.files).2)).2
      !! "/home/work/meson_bld/README.html"
    = Some (Bytes.of_string "<html># ring buffer").
Proof. split; vm_compute; reflexivity. Qed.

(** C9.  With no argument after the name of the script, the script ends
    with an uncaught [IndexError] at its first statement: no environment
    variable has been read, no subprocess started, nothing printed or
    written. *)
Theorem no_argument (p : process) (fs0 : filesystem) :
  length (argv p) = 1 →
  (run p fs0).1 = Raise IndexError
  ∧ exit_status (run p fs0).1 = Some 1%Z
  ∧ trace (run p fs0).2 = []
  ∧ env_reads (trace (run p fs0).2) = []
  ∧ spawned (trace (run p fs0).2) = []
  ∧ fs (run p fs0).2 = fs0.
Proof.
  intros Hlen.
  assert (argv p !! 1 = None) as Ha by (apply lookup_ge_None_2; lia).
  by rewrite (run_no_argument p fs0 Ha).
Qed.

Lemma no_argument_witness :
  length (argv Sample.no_argument_proc) = 1
  ∧ (run Sample.no_argument_proc Sample.files).1 = Raise IndexError
  ∧ exit_status (run Sample.no_argument_proc Sample.files).1 = Some 1%Z
  ∧ trace (run Sample.no_argument_proc Sample.files).2 = []
  ∧ env_reads (trace (run Sample.no_argument_proc Sample.files).2) = []
  ∧ spawned (trace (run Sample.no_argument_proc Sample.files).2) = []
  ∧ fs (run Sample.no_argument_proc Sample.files).2 = Sample.files.
Proof.
  split; [reflexivity|].
  apply (no_argument Sample.no_argument_proc Sample.files). reflexivity.
Defined.

(** ** What the script depends on *)

Lemma run_depends (p1 p2 : process) (fs0 : filesystem) :
  argv p1 !! 1 = argv p2 !! 1 →
  environ p1 !! "MESON_SOURCE_ROOT" = environ p2 !! "MESON_SOURCE_ROOT" →
  environ p1 !! "MESON_BUILD_ROOT" = environ p2 !! "MESON_BUILD_ROOT" →
  (∀ cmd, os_exec p1 cmd fs0 = os_exec p2 cmd fs0) →
  run p1 fs0 = run p2 fs0.
Proof.
  intros Ha HS HD Hos.
  destruct (argv p2 !! 1) as [a|] eqn:Ha2;
    [|by rewrite !run_no_argument].
  destruct (environ p2 !! "MESON_SOURCE_ROOT") as [S|] eqn:HS2;
    [|by rewrite !(run_no_source_root _ _ a)].
  destruct (environ p2 !! "MESON_BUILD_ROOT") as [D|] eqn:HD2;
    [|by rewrite !(run_no_build_root _ _ a S)].
  specialize (Hos (command a S D)).
  destruct (os_exec p2 (command a S D) fs0) as [[|c fs']|] eqn:Hos2.
  - by rewrite (run_never_exits p1 fs0 a S D Ha HS HD Hos),
      (run_never_exits p2 fs0 a S D Ha2 HS2 HD2 Hos2).
  - by rewrite (run_exits p1 fs0 a S D Ha HS HD c fs' Hos),
      (run_exits p2 fs0 a S D Ha2 HS2 HD2 c fs' Hos2).
  - by rewrite (run_spawn_fails p1 fs0 a S D Ha HS HD Hos),
      (run_spawn_fails p2 fs0 a S D Ha2 HS2 HD2 Hos2).
Qed.

(** Arguments after the first, and the name of the script, do not
    matter. *)
Lemma extra_arguments_ignored (prog prog' a : string) (more more' : list string)
    (env : gmap string string) (os : launcher) (fs0 : filesystem) :
  run (Process (prog :: a :: more) env os) fs0
  = run (Process (prog' :: a :: more') env os) fs0.
Proof. by apply run_depends. Qed.

(** C10.  What the script does is a function of its first argument, the
    two variables and what the converter does: two invocations that agree
    on these (and so may differ in any further argument, in the name of
    the script and in the rest of the environment) end the same way, with
    the same trace (variables read, command started with the same paths,
    lines printed) and the same file system. *)
Theorem determined_by_inputs (p1 p2 : process) (fs0 : filesystem) :
  argv p1 !! 1 = argv p2 !! 1 →
  environ p1 !! "MESON_SOURCE_ROOT" = environ p2 !! "MESON_SOURCE_ROOT" →
  environ p1 !! "MESON_BUILD_ROOT" = environ p2 !! "MESON_BUILD_ROOT" →
  (∀ cmd, os_exec p1 cmd fs0 = os_exec p2 cmd fs0) →
  (run p1 fs0).1 = (run p2 fs0).1
  ∧ trace (run p1 fs0).2 = trace (run p2 fs0).2
  ∧ spawned (trace (run p1 fs0).2) = spawned (trace (run p2 fs0).2)
  ∧ printed (trace (run p1 fs0).2) = printed (trace (run p2 fs0).2)
  ∧ fs (run p1 fs0).2 = fs (run p2 fs0).2.
Proof.
  intros Ha HS HD Hos. by rewrite (run_depends p1 p2 fs0 Ha HS HD Hos).
Qed.

Lemma determined_by_inputs_witness :
  argv Sample.extra_args_proc !! 1 = argv Sample.copying_proc !! 1
  ∧ (run Sample.extra_args_proc Sample.files).1
    = (run Sample.copying_proc Sample.files).1
  ∧ trace (run Sample.extra_args_proc Sample.files).2
    = trace (run Sample.copying_proc Sample.files).2
  ∧ spawned (trace (run Sample.extra_args_proc Sample.files).2)
    = spawned (trace (run Sample.copying_proc Sample.files).2)
  ∧ printed (trace (run Sample.extra_args_proc Sample.files).2)
    = printed (trace (run Sample.copying_proc Sample.files).2)
  ∧ fs (run Sample.extra_args_proc Sample.files).2
    = fs (run Sample.copying_proc Sample.files).2.
Proof.
  split; [reflexivity|].
  apply (determined_by_inputs Sample.extra_args_proc Sample.copying_proc
           Sample.files); reflexivity.
Defined.

(** * Further properties of the script *)

(** ** More on paths *)

Section MorePathFacts.
Import posixpath.
Implicit Types (s t a b : string) (c x : ascii).

Lemma startswith_append s t : Str.startswith s (s +:+ t) = true.
Proof.
  induction s as [|x s IH]; [done|].
  rewrite append_cons. cbn [Str.startswith]. by rewrite Ascii.eqb_refl, IH.
Qed.

Lemma no_sep_relative b :
  Str.contains sep_char b = false → Str.startswith sep b = false.
Proof.
  destruct b as [|x b]; [done|]. cbn [Str.contains Str.startswith sep].
  intros [Hx _]%orb_false_elim. by rewrite Ascii.eqb_sym, Hx.
Qed.

Lemma file_name_no_sep a suffix :
  Str.contains sep_char suffix = false →
  Str.contains sep_char (basename a +:+ suffix) = false.
Proof. intros H. by rewrite contains_append, basename_no_sep, H. Qed.

(** The root is kept, as a prefix, when the second argument is relative. *)
Lemma join_keeps_root a b :
  Str.startswith sep b = false → Str.startswith a (join a b) = true.
Proof.
  intros Hb. rewrite (join_relative a b Hb).
  destruct (_ || _); apply startswith_append.
Qed.

(** [basename] undoes [join] on a name without separator. *)
Lemma basename_join a b :
  Str.contains sep_char b = false → basename (join a b) = b.
Proof.
  intros Hb. rewrite (join_relative a b (no_sep_relative b Hb)).
  destruct (String.eqb_spec a EmptyString) as [->|Hne]; cbn [orb].
  - rewrite append_nil. by apply basename_plain.
  - destruct (Str.endswith sep a) eqn:Hend.
    + apply basename_unique; [|done]. right. by apply endswith_last.
    + rewrite <- append_assoc. apply basename_unique; [|done].
      right. by rewrite last_append.
Qed.

(** A separator at the end of the root changes nothing. *)
Lemma join_trailing_sep_same a b :
  a ≠ EmptyString → Str.endswith sep a = false →
  Str.startswith sep b = false →
  join (a +:+ sep) b = join a b.
Proof.
  intros Hne Hend Hb. rewrite !join_relative by done.
  rewrite Hend. apply String.eqb_neq in Hne. rewrite Hne. cbn [orb].
  assert (Str.endswith sep (a +:+ sep) = true) as ->.
  { apply endswith_last. by rewrite last_append. }
  rewrite orb_true_r. apply append_assoc.
Qed.

End MorePathFacts.

(** ** The argument counts only through its base name *)

Lemma run_depends_basename (p1 p2 : process) (fs0 : filesystem) (a1 a2 : string) :
  argv p1 !! 1 = Some a1 →
  argv p2 !! 1 = Some a2 →
  posixpath.basename a1 = posixpath.basename a2 →
  environ p1 !! "MESON_SOURCE_ROOT" = environ p2 !! "MESON_SOURCE_ROOT" →
  environ p1 !! "MESON_BUILD_ROOT" = environ p2 !! "MESON_BUILD_ROOT" →
  (∀ cmd, os_exec p1 cmd fs0 = os_exec p2 cmd fs0) →
  run p1 fs0 = run p2 fs0.
Proof.
  intros Ha1 Ha2 Hb HS HD Hos.
  destruct (environ p2 !! "MESON_SOURCE_ROOT") as [S|] eqn:HS2;
    [|by rewrite (run_no_source_root p1 fs0 a1 Ha1 HS),
        (run_no_source_root p2 fs0 a2 Ha2 HS2)].
  destruct (environ p2 !! "MESON_BUILD_ROOT") as [D|] eqn:HD2;
    [|by rewrite (run_no_build_root p1 fs0 a1 S Ha1 HS HD),
        (run_no_build_root p2 fs0 a2 S Ha2 HS2 HD2)].
  specialize (Hos (command a1 S D)).
  destruct (os_exec p1 (command a1 S D) fs0) as [[|c fs']|] eqn:Hos1;
    symmetry in Hos; pose proof Hos as Hos2; rewrite Hb in Hos2.
  - rewrite (run_never_exits p1 fs0 a1 S D Ha1 HS HD Hos1),
      (run_never_exits p2 fs0 a2 S D Ha2 HS2 HD2 Hos2). by rewrite Hb.
  - rewrite (run_exits p1 fs0 a1 S D Ha1 HS HD c fs' Hos1),
      (run_exits p2 fs0 a2 S D Ha2 HS2 HD2 c fs' Hos2). by rewrite Hb.
  - rewrite (run_spawn_fails p1 fs0 a1 S D Ha1 HS HD Hos1),
      (run_spawn_fails p2 fs0 a2 S D Ha2 HS2 HD2 Hos2). by rewrite Hb.
Qed.

(** X1.  Two invocations whose first arguments have the same base name
    (as [dir/README] and [README]), with the same two variables and the
    same converter, end the same way, with the same trace and the same
    file system: the directory part of the argument is never used. *)
Theorem directory_part_ignored (p1 p2 : process) (fs0 : filesystem)
    (a1 a2 : string) :
  argv p1 !! 1 = Some a1 →
  argv p2 !! 1 = Some a2 →
  posixpath.basename a1 = posixpath.basename a2 →
  environ p1 !! "MESON_SOURCE_ROOT" = environ p2 !! "MESON_SOURCE_ROOT" →
  environ p1 !! "MESON_BUILD_ROOT" = environ p2 !! "MESON_BUILD_ROOT" →
  (∀ cmd, os_exec p1 cmd fs0 = os_exec p2 cmd fs0) →
  (run p1 fs0).1 = (run p2 fs0).1
  ∧ trace (run p1 fs0).2 = trace (run p2 fs0).2
  ∧ fs (run p1 fs0).2 = fs (run p2 fs0).2.
Proof.
  intros Ha1 Ha2 Hb HS HD Hos.
  by rewrite (run_depends_basename p1 p2 fs0 a1 a2 Ha1 Ha2 Hb HS HD Hos).
Qed.

Lemma directory_part_ignored_witness :
  posixpath.basename "dir/README" = posixpath.basename "README"
  ∧ (run Sample.dir_proc Sample.files).1
    = (run Sample.copying_proc Sample.files).1
  ∧ trace (run Sample.dir_proc Sample.files).2
    = trace (run Sample.copying_proc Sample.files).2
  ∧ fs (run Sample.dir_proc Sample.files).2
    = fs (run Sample.copying_proc Sample.files).2.
Proof.
  split; [reflexivity|].
  apply (directory_part_ignored Sample.dir_proc Sample.copying_proc
           Sample.files "dir/README" "README"); reflexivity.
Defined.

(** ** The two paths of a started command *)

(** X2.  Whatever the invocation, the input path and the output path of a
    command the script starts are different paths: the converter is never
    asked to write over its own input. *)
Theorem input_is_not_output (p : process) (fs0 : filesystem)
    (cmd : list string) :
  cmd ∈ spawned (trace (run p fs0).2) →
  ∃ infile outfile,
    cmd !! 4 = Some infile ∧ cmd !! 6 = Some outfile ∧ infile ≠ outfile.
Proof.
  intros Hin.
  destruct (spawned_inv p fs0 cmd Hin) as (a & S & D & _ & _ & _ & ->).
  eexists _, _. split; [reflexivity|]. split; [reflexivity|].
  apply infile_outfile_differ.
Qed.

Lemma input_is_not_output_witness :
  ["/usr/bin/pandoc"; "-f"; "markdown"; "-s"; "/home/work/README.md"; "-o";
   "/home/work/meson_bld/README.html"]
    ∈ spawned (trace (run Sample.copying_proc Sample.files).2)
  ∧ ∃ infile outfile,
      ["/usr/bin/pandoc"; "-f"; "markdown"; "-s"; "/home/work/README.md";
       "-o"; "/home/work/meson_bld/README.html"] !! 4 = Some infile
      ∧ ["/usr/bin/pandoc"; "-f"; "markdown"; "-s"; "/home/work/README.md";
         "-o"; "/home/work/meson_bld/README.html"] !! 6 = Some outfile
      ∧ infile ≠ outfile.
Proof.
  assert (["/usr/bin/pandoc"; "-f"; "markdown"; "-s"; "/home/work/README.md";
           "-o"; "/home/work/meson_bld/README.html"]
            ∈ spawned (trace (run Sample.copying_proc Sample.files).2)) as Hin.
  { vm_compute. apply list_elem_of_here. }
  split; [exact Hin|].
  exact (input_is_not_output Sample.copying_proc Sample.files _ Hin).
Defined.

(** X3.  The file name of the input path is the base name of the argument
    followed by [.md], that of the output path the base name followed by
    [.html], whatever the roots are: [basename] undoes the [join] of the
    script. *)
Theorem file_names_of_paths (p : process) (fs0 : filesystem) (a S D : string) :
  argv p !! 1 = Some a →
  environ p !! "MESON_SOURCE_ROOT" = Some S →
  environ p !! "MESON_BUILD_ROOT" = Some D →
  ∃ infile outfile,
    spawned (trace (run p fs0).2) =
      [["/usr/bin/pandoc"; "-f"; "markdown"; "-s"; infile; "-o"; outfile]]
    ∧ posixpath.basename infile = posixpath.basename a +:+ ".md"
    ∧ posixpath.basename outfile = posixpath.basename a +:+ ".html".
Proof.
  intros Ha HS HD. eexists _, _.
  split; [by apply spawned_run|].
  split; apply basename_join, file_name_no_sep; reflexivity.
Qed.

Lemma file_names_of_paths_witness :
  ∃ infile outfile,
    spawned (trace (run Sample.dir_proc Sample.files).2) =
      [["/usr/bin/pandoc"; "-f"; "markdown"; "-s"; infile; "-o"; outfile]]
    ∧ posixpath.basename infile = posixpath.basename "dir/README" +:+ ".md"
    ∧ posixpath.basename outfile = posixpath.basename "dir/README" +:+ ".html".
Proof.
  apply (file_names_of_paths Sample.dir_proc Sample.files
           "dir/README" "/home/work" "/home/work/meson_bld");
    reflexivity.
Defined.

(** X4.  Each path of the started command begins with its root: the path
    of the input with the value of [MESON_SOURCE_ROOT], that of the output
    with the value of [MESON_BUILD_ROOT].  No argument, not even an
    absolute one, makes the script leave the roots. *)
Theorem paths_stay_under_roots (p : process) (fs0 : filesystem)
    (a S D : string) :
  argv p !! 1 = Some a →
  environ p !! "MESON_SOURCE_ROOT" = Some S →
  environ p !! "MESON_BUILD_ROOT" = Some D →
  ∃ infile outfile,
    spawned (trace (run p fs0).2) =
      [["/usr/bin/pandoc"; "-f"; "markdown"; "-s"; infile; "-o"; outfile]]
    ∧ Str.startswith S infile = true
    ∧ Str.startswith D outfile = true.
Proof.
  intros Ha HS HD. eexists _, _.
  split; [by apply spawned_run|].
  split; apply join_keeps_root, startswith_basename; reflexivity.
Qed.

Lemma paths_stay_under_roots_witness :
  ∃ infile outfile,
    spawned (trace (run Sample2.absolute_proc Sample.files).2) =
      [["/usr/bin/pandoc"; "-f"; "markdown"; "-s"; infile; "-o"; outfile]]
    ∧ Str.startswith "/home/work" infile = true
    ∧ Str.startswith "/home/work/meson_bld" outfile = true.
Proof.
  apply (paths_stay_under_roots Sample2.absolute_proc Sample.files
           "/etc/passwd" "/home/work" "/home/work/meson_bld");
    reflexivity.
Defined.

(** X5.  Writing a root with a separator at its end changes nothing: the
    command started is the same as for the root without it. *)
Theorem trailing_separator_of_roots (p1 p2 : process) (fs0 : filesystem)
    (a S D : string) :
  argv p1 !! 1 = Some a →
  argv p2 !! 1 = Some a →
  environ p1 !! "MESON_SOURCE_ROOT" = Some S →
  environ p1 !! "MESON_BUILD_ROOT" = Some D →
  environ p2 !! "MESON_SOURCE_ROOT" = Some (S +:+ "/") →
  environ p2 !! "MESON_BUILD_ROOT" = Some (D +:+ "/") →
  S ≠ EmptyString → Str.endswith posixpath.sep S = false →
  D ≠ EmptyString → Str.endswith posixpath.sep D = false →
  spawned (trace (run p2 fs0).2) = spawned (trace (run p1 fs0).2).
Proof.
  intros Ha1 Ha2 HS1 HD1 HS2 HD2 HS HSe HD HDe.
  rewrite (spawned_run p1 fs0 a S D Ha1 HS1 HD1).
  rewrite (spawned_run p2 fs0 a _ _ Ha2 HS2 HD2).
  change "/" with posixpath.sep.
  rewrite !join_trailing_sep_same; try done;
    apply startswith_basename; reflexivity.
Qed.

Lemma trailing_separator_of_roots_witness :
  spawned (trace (run Sample2.slash_proc Sample.files).2)
  = spawned (trace (run Sample.copying_proc Sample.files).2).
Proof.
  apply (trailing_separator_of_roots Sample.copying_proc Sample2.slash_proc
           Sample.files "README" "/home/work" "/home/work/meson_bld");
    try reflexivity; done.
Defined.

(** ** The diagnostic lines can be read back *)

Section ReadBack.

Lemma body_repr_byte q b rest :
  q = Bytes.squote ∨ q = Bytes.dquote →
  Unrepr.body q (Bytes.repr_byte q b +:+ rest)
  = Unrepr.push b (Unrepr.body q rest).
Proof. intros [-> | ->]; destruct b; reflexivity. Qed.

Lemma body_repr_body q bs rest :
  q = Bytes.squote ∨ q = Bytes.dquote →
  Unrepr.body q (Bytes.repr_body q bs +:+ rest) = Some (bs, rest).
Proof.
  intros Hq. induction bs as [|b bs IH]; cbn [Bytes.repr_body].
  - by destruct Hq as [-> | ->].
  - by rewrite append_assoc, body_repr_byte, IH.
Qed.

(** Reading back a [repr] gives the bytes, and stops where it ends. *)
Lemma literal_repr bs rest :
  Unrepr.literal (Bytes.repr bs +:+ rest) = Some (bs, rest).
Proof.
  unfold Bytes.repr. rewrite !append_cons. cbn [Unrepr.literal].
  rewrite Ascii.eqb_refl. apply body_repr_body, quote_of_cases.
Qed.

Lemma append_empty s : s +:+ EmptyString = s.
Proof. induction s as [|x s IH]; [done|]. by rewrite append_cons, IH. Qed.

Lemma repr_inj bs1 bs2 rest1 rest2 :
  Bytes.repr bs1 +:+ rest1 = Bytes.repr bs2 +:+ rest2 →
  bs1 = bs2 ∧ rest1 = rest2.
Proof.
  intros H. apply (f_equal Unrepr.literal) in H.
  rewrite !literal_repr in H. by simplify_eq.
Qed.

End ReadBack.

(** X6.  The two printed lines determine what the converter returned: a
    result that would be printed as the same two lines has the same exit
    status and, byte for byte, the same two captured streams. *)
Theorem diagnostics_determine_result (p : process) (fs0 : filesystem)
    (a S D : string) (c c' : completed) (fs' : filesystem) :
  argv p !! 1 = Some a →
  environ p !! "MESON_SOURCE_ROOT" = Some S →
  environ p !! "MESON_BUILD_ROOT" = Some D →
  os_exec p (command a S D) fs0 = Some (Exits c fs') →
  printed (trace (run p fs0).2) =
    ["FAILED ret=" +:+ pretty (returncode c');
     "output=" +:+ Bytes.repr (stdout_data c') +:+
     " errors=" +:+ Bytes.repr (stderr_data c')] →
  c' = c.
Proof.
  intros Ha HS HD Hos.
  rewrite (run_exits p fs0 a S D Ha HS HD c fs' Hos). cbn [snd trace].
  unfold printed. rewrite !omap_app.
  destruct (bool_decide _); cbn [omap list_omap app]; [|done].
  intros Hlines.
  pose proof (f_equal (λ l : list string, l !! 0) Hlines) as Hret.
  pose proof (f_equal (λ l : list string, l !! 1) Hlines) as Hstreams.
  clear Hlines. cbn [lookup list_lookup] in Hret, Hstreams.
  apply (inj Some) in Hret. apply (inj Some) in Hstreams.
  apply (inj (String.app "FAILED ret=")), (inj pretty) in Hret.
  apply (inj (String.app "output=")) in Hstreams.
  apply repr_inj in Hstreams as [Hout Herr].
  apply (inj (String.app " errors=")) in Herr.
  rewrite <- (append_empty (Bytes.repr (stderr_data c))) in Herr.
  rewrite <- (append_empty (Bytes.repr (stderr_data c'))) in Herr.
  apply repr_inj in Herr as [Herr _].
  destruct c, c'; cbn in *. by subst.
Qed.

Lemma diagnostics_determine_result_witness :
  printed (trace (run Sample2.noisy_proc Sample.files).2) =
    ["FAILED ret=" +:+ pretty 3%Z;
     "output=" +:+ Bytes.repr (Bytes.of_string "it's") +:+
     " errors=" +:+ Bytes.repr [x0a; x22; x27; x5c; xff]]
  ∧ Completed 3 (Bytes.of_string "it's") [x0a; x22; x27; x5c; xff]
    = Completed 3 (Bytes.of_string "it's") [x0a; x22; x27; x5c; xff].
Proof.
  split; [reflexivity|].
  apply (diagnostics_determine_result Sample2.noisy_proc Sample.files
           "README" "/home/work" "/home/work/meson_bld" _ _ Sample.files);
    reflexivity.
Defined.

(** ** Which error, and when *)

(** X7.  Which lookup error ends the script: [IndexError] exactly when
    there is no first argument; [KeyError] for [MESON_SOURCE_ROOT] exactly
    when the argument is there and that variable is not set, whatever
    [MESON_BUILD_ROOT] is; [KeyError] for [MESON_BUILD_ROOT] exactly when
    the argument and the source root are there and the build root is not
    set.  No other key is ever reported. *)
Theorem lookup_error_precedence (p : process) (fs0 : filesystem) :
  ((run p fs0).1 = Raise IndexError ↔ argv p !! 1 = None)
  ∧ (∀ k,
       (run p fs0).1 = Raise (KeyError k) ↔
       is_Some (argv p !! 1)
       ∧ ((k = "MESON_SOURCE_ROOT"
           ∧ environ p !! "MESON_SOURCE_ROOT" = None)
          ∨ (k = "MESON_BUILD_ROOT"
             ∧ is_Some (environ p !! "MESON_SOURCE_ROOT")
             ∧ environ p !! "MESON_BUILD_ROOT" = None))).
Proof.
  destruct (argv p !! 1) as [a|] eqn:Ha.
  - destruct (environ p !! "MESON_SOURCE_ROOT") as [S|] eqn:HS.
    + destruct (environ p !! "MESON_BUILD_ROOT") as [D|] eqn:HD.
      * destruct (run_reaches_spawn p fs0 a S D Ha HS HD)
          as (r & fs1 & rest & Hrun & _ & _ & Hexn).
        rewrite Hrun. cbn [fst]. split.
        -- split; [|done]. by intros ?%Hexn.
        -- intros k. split; [by intros ?%Hexn|].
           intros [_ [[_ ?]|(_ & _ & ?)]]; done.
      * rewrite (run_no_build_root p fs0 a S Ha HS HD). cbn [fst].
        split; [done|]. intros k. split.
        -- intros [= <-]. split; [done|]. right. by repeat split.
        -- intros [_ [[_ ?]|(-> & _ & _)]]; done.
    + rewrite (run_no_source_root p fs0 a Ha HS). cbn [fst].
      split; [done|]. intros k. split.
      * intros [= <-]. split; [done|]. by left.
      * intros [_ [[-> _]|(_ & [? ?] & _)]]; done.
  - rewrite (run_no_argument p fs0 Ha). cbn [fst].
    split; [done|]. intros k. split; [done|]. by intros [[? ?] _].
Qed.

(** X8.  The trace of every run is made of the environment reads, then
    the commands started, then the lines printed, in this order, where the
    reads are a prefix of the two variables in the order of the script,
    there is at most one command and there are no or two lines; a command
    is started only after both reads, lines are printed only after a
    command. *)
Theorem trace_shape (p : process) (fs0 : filesystem) :
  let t := trace (run p fs0).2 in
  t = (EnvRead <$> env_reads t) ++ (Spawn <$> spawned t)
        ++ (Print <$> printed t)
  ∧ env_reads t `prefix_of` ["MESON_SOURCE_ROOT"; "MESON_BUILD_ROOT"]
  ∧ length (spawned t) ≤ 1
  ∧ (length (printed t) = 0 ∨ length (printed t) = 2)
  ∧ (spawned t ≠ [] →
     env_reads t = ["MESON_SOURCE_ROOT"; "MESON_BUILD_ROOT"])
  ∧ (printed t ≠ [] → spawned t ≠ []).
Proof.
  intros t. subst t.
  assert (∀ r st, run p fs0 = (r, st) →
            trace st = [] ∨ trace st = [EnvRead "MESON_SOURCE_ROOT"]
            ∨ trace st = reads_done
            ∨ (∃ cmd, trace st = reads_done ++ [Spawn cmd])
            ∨ (∃ cmd l1 l2,
                 trace st = reads_done ++ [Spawn cmd; Print l1; Print l2]))
    as Hshape.
  { intros r st.
    destruct (argv p !! 1) as [a|] eqn:Ha;
      [|rewrite (run_no_argument p fs0 Ha); intros [= _ <-]; by left].
    destruct (environ p !! "MESON_SOURCE_ROOT") as [S|] eqn:HS;
      [|rewrite (run_no_source_root p fs0 a Ha HS); intros [= _ <-];
        right; by left].
    destruct (environ p !! "MESON_BUILD_ROOT") as [D|] eqn:HD;
      [|rewrite (run_no_build_root p fs0 a S Ha HS HD); intros [= _ <-];
        right; right; by left].
    destruct (os_exec p (command a S D) fs0) as [[|c fs']|] eqn:Hos.
    - rewrite (run_never_exits p fs0 a S D Ha HS HD Hos). intros [= _ <-].
      do 3 right. left. by eexists.
    - rewrite (run_exits p fs0 a S D Ha HS HD c fs' Hos). intros [= _ <-].
      do 3 right. destruct (bool_decide _); [right | left]; by repeat eexists.
    - rewrite (run_spawn_fails p fs0 a S D Ha HS HD Hos). intros [= _ <-].
      do 3 right. left. by eexists. }
  destruct (run p fs0) as [r st] eqn:Hrun. cbn [snd].
  destruct (Hshape r st eq_refl)
    as [-> | [-> | [-> | [[cmd ->] | (cmd & l1 & l2 & ->)]]]];
    cbn; repeat split; try done; try lia;
    try (by eexists); try (by left); by right.
Qed.


(** X10.  The script ends with [OSError] exactly when the argument and the
    two variables are there and the converter cannot be started, and it
    blocks for ever exactly when they are there and the converter never
    exits: there is no timeout and no handler around [Popen] and
    [wait]. *)
Theorem converter_failure_modes (p : process) (fs0 : filesystem) :
  ((run p fs0).1 = Raise OSError ↔
   ∃ a S D,
     argv p !! 1 = Some a
     ∧ environ p !! "MESON_SOURCE_ROOT" = Some S
     ∧ environ p !! "MESON_BUILD_ROOT" = Some D
     ∧ os_exec p (command a S D) fs0 = None)
  ∧ ((run p fs0).1 = Blocked ↔
     ∃ a S D,
       argv p !! 1 = Some a
       ∧ environ p !! "MESON_SOURCE_ROOT" = Some S
       ∧ environ p !! "MESON_BUILD_ROOT" = Some D
       ∧ os_exec p (command a S D) fs0 = Some NeverExits).
Proof.
  destruct (argv p !! 1) as [a|] eqn:Ha;
    [|rewrite (run_no_argument p fs0 Ha); cbn;
      repeat split; try done; by intros (?&?&?&?&_)].
  destruct (environ p !! "MESON_SOURCE_ROOT") as [S|] eqn:HS;
    [|rewrite (run_no_source_root p fs0 a Ha HS); cbn;
      repeat split; try done; by intros (?&?&?&_&?&_)].
  destruct (environ p !! "MESON_BUILD_ROOT") as [D|] eqn:HD;
    [|rewrite (run_no_build_root p fs0 a S Ha HS HD); cbn;
      repeat split; try done; by intros (?&?&?&_&_&?&_)].
  destruct (os_exec p (command a S D) fs0) as [[|c fs']|] eqn:Hos.
  - rewrite (run_never_exits p fs0 a S D Ha HS HD Hos). cbn [fst].
    repeat split; try done.
    + intros (?&?&?&[= <-]&[= <-]&[= <-]&Hos'). congruence.
    + intros _. by exists a, S, D.
  - rewrite (run_exits p fs0 a S D Ha HS HD c fs' Hos). cbn [fst].
    repeat split; try done;
      intros (?&?&?&[= <-]&[= <-]&[= <-]&Hos'); congruence.
  - rewrite (run_spawn_fails p fs0 a S D Ha HS HD Hos). cbn [fst].
    repeat split; try done.
    + intros _. by exists a, S, D.
    + intros (?&?&?&[= <-]&[= <-]&[= <-]&Hos'). congruence.
Qed.

(** X11.  When the converter fails and both captured streams are plain
    text (printable ASCII without single quote and backslash), the second
    line shows them as they are: [output=b'...' errors=b'...'] with the
    text of the streams between the quotes. *)
Theorem plain_streams_shown_verbatim (p : process) (fs0 : filesystem)
    (a S D : string) (c : completed) (fs' : filesystem) :
  argv p !! 1 = Some a →
  environ p !! "MESON_SOURCE_ROOT" = Some S →
  environ p !! "MESON_BUILD_ROOT" = Some D →
  os_exec p (command a S D) fs0 = Some (Exits c fs') →
  returncode c ≠ 0%Z →
  forallb Bytes.plain (stdout_data c) = true →
  forallb Bytes.plain (stderr_data c) = true →
  printed (trace (run p fs0).2) !! 1 =
    Some ("output=b'" +:+ Bytes.to_string (stdout_data c) +:+
          "' errors=b'" +:+ Bytes.to_string (stderr_data c) +:+ "'").
Proof.
  intros Ha HS HD Hos Hnz Hout Herr.
  rewrite (run_exits p fs0 a S D Ha HS HD c fs' Hos). cbn [snd trace].
  rewrite bool_decide_eq_true_2 by done.
  unfold printed. rewrite !omap_app. cbn [omap list_omap app lookup list_lookup].
  rewrite (repr_plain _ Hout), (repr_plain _ Herr).
  f_equal. by rewrite !append_assoc.
Qed.

Lemma plain_streams_shown_verbatim_witness :
  2%Z ≠ 0%Z
  ∧ printed (trace (run Sample.failing_proc Sample.files).2) !! 1 =
      Some ("output=b'" +:+ Bytes.to_string [] +:+
            "' errors=b'" +:+ Bytes.to_string (Bytes.of_string "boom")
            +:+ "'").
Proof.
  split; [done|].
  apply (plain_streams_shown_verbatim Sample.failing_proc Sample.files
           "README" "/home/work" "/home/work/meson_bld"
           (Completed 2 [] (Bytes.of_string "boom")) Sample.files);
    try reflexivity.
  done.
Defined.
